(** * The OpenAPI import handler of http2mcp

    A shallow embedding of [internal/apiserver/handler/openapi.go]: the
    [OpenAPI] handler struct, its constructor [NewOpenAPI] and the request
    handler [HandleImport], followed by the properties of the import
    workflow.

    [HandleImport] is an orchestrator: it reads an uploaded file, hands the
    bytes to the converter of [pkg/openapi], stores the resulting
    [*config.MCPConfig] through [storage.Store] and announces it through
    [notifier.Notifier].  Every one of those collaborators lives outside the
    file, so each is a record of methods acting on its own piece of state,
    and the handler is a program in a small state monad that threads the
    state of the world, records every call it makes in a trace, and can
    leave early the way the Go code does with [return]. *)

From Stdlib Require Import List String ZArith Lia Bool.
From Stdlib Require Import Strings.Byte.
Import ListNotations.
Open Scope string_scope.

(** ** Go values *)

(** A Go [error] is observed by the handler only through [err.Error()];
    [nil] is [None]. *)
Definition error := string.

(** [[]byte] *)
Definition bytes := list byte.

(** The address held in a [*config.MCPConfig]. *)
Definition Ptr := nat.

(** [make([]byte, n)] for a non-negative [n]: a zero-filled slice. *)
Definition zeroed (n : nat) : bytes := repeat x00 n.

(** The builtin [copy(dst, src)]: the first [min (len dst) (len src)] bytes
    of [dst] are overwritten, the rest of [dst] is kept.  This is how a
    reader delivers the bytes of one [Read] call into the caller's slice. *)
Definition copy (dst src : bytes) : bytes :=
  (firstn (List.length dst) src ++ skipn (List.length src) dst)%list.

(** How a statement ends: control goes on to the next one, the function
    has returned, or the goroutine panics. *)
Inductive Step (A : Type) :=
| Next (a : A)
| Returned
| Panicked (msg : string).
Arguments Next {A} a.
Arguments Returned {A}.
Arguments Panicked {A} msg.

(** ** The types the handler imports but does not define *)

Class Externals := {
  (** [context.Context] *)
  Context_ : Type;
  (** [config.MCPConfig]; the handler reads one field of it, [Name]. *)
  MCPConfig : Type;
  Name : MCPConfig -> string;
  (** [database.Database] and [*zap.Logger], the handles kept in the struct *)
  Database : Type;
  Logger : Type;
  (** what lies behind the database, the store and the notifier *)
  DBState : Type;
  StoreState : Type;
  NotifierState : Type
}.

Section Handler.
Context `{Externals}.

(** The objects [*config.MCPConfig] pointers refer to.  A pointer handed to
    a collaborator gives it the right to write the object, so the store and
    the notifier receive the heap and return it. *)
Definition Heap := Ptr -> MCPConfig.

Definition heap_set (hp : Heap) (p : Ptr) (v : MCPConfig) : Heap :=
  fun q => if Nat.eqb q p then v else hp q.

(** [storage.Store], of which the handler uses [Create(ctx, cfg) error]. *)
Record Store := {
  Create : Context_ -> Ptr -> StoreState -> Heap ->
           option error * StoreState * Heap
}.

(** [notifier.Notifier], of which the handler uses
    [NotifyUpdate(ctx, cfg) error]. *)
Record Notifier := {
  NotifyUpdate : Context_ -> Ptr -> NotifierState -> Heap ->
                 option error * NotifierState * Heap
}.

(** Modelled from the spec: the converter of [pkg/openapi], whose code is
    not part of the handler's file.  The spec gives it as a pure function
    from the bytes and the addressing hint to a configuration or a
    conversion error, so its two entry points, which in Go return a
    [*config.MCPConfig] and an [error], are functions of their arguments
    alone, and a [nil] error comes with a freshly built configuration. *)
Record Converter := {
  Convert : bytes -> MCPConfig + error;
  ConvertWithOptions : bytes -> string -> string -> MCPConfig + error
}.

(** [multipart.File]: what the first [Read] on the opened upload delivers
    for a slice of the given length (the bytes copied in, and the error
    returned with them), and what [Close] returns.  A reader writes the
    bytes it reports and nothing else of the slice, as the readers behind
    an upload (a section of memory, a temporary file) do. *)
Record File := {
  Read : nat -> bytes * option error;
  Close : option error
}.

(** [*multipart.FileHeader] *)
Record FileHeader := {
  Filename : string;
  Size : Z;                      (* int64 *)
  Open : File + error
}.

(** [*gin.Context], as far as the handler looks at it. *)
Record GinContext := {
  FormFile : string -> FileHeader + error;
  PostForm : string -> string;
  Request_Context : Context_     (* c.Request.Context() *)
}.

(** ** Responses ([internal/i18n]) *)

Inductive I18nError := ErrBadRequest | ErrInternalServer.

(** [e.WithParam(k, v)] *)
Record ErrorWithParams := {
  err_code : I18nError;
  err_params : list (string * string)
}.

Definition WithParam (e : I18nError) (k v : string) : ErrorWithParams :=
  {| err_code := e; err_params := [(k, v)] |}.

Inductive MessageKey := SuccessOpenAPIImported.

(** A value given to [With]: a string, or the configuration pointer. *)
Inductive Value :=
| VString (s : string)
| VConfig (p : Ptr).

(** The builder started by [i18n.Created]. *)
Record SuccessBuilder := {
  sb_msg : MessageKey;
  sb_data : list (string * Value)
}.

Definition Created (m : MessageKey) : SuccessBuilder :=
  {| sb_msg := m; sb_data := [] |}.

Definition With (k : string) (v : Value) (b : SuccessBuilder) : SuccessBuilder :=
  {| sb_msg := sb_msg b; sb_data := (sb_data b ++ [(k, v)])%list |}.

(** What goes on the wire: a pointer is serialised when the response is
    sent, as the object it refers to at that moment. *)
Inductive Payload :=
| PString (s : string)
| PConfig (p : Ptr) (v : MCPConfig).

Definition serialise (hp : Heap) (v : Value) : Payload :=
  match v with
  | VString s => PString s
  | VConfig p => PConfig p (hp p)
  end.

Inductive Response :=
| ErrorResponse (e : ErrorWithParams)
| CreatedResponse (m : MessageKey) (data : list (string * Payload)).

(** ** Log records ([zap]) *)

Inductive Level := Debug | Info | Error.

Inductive Field :=
| zap_String (k v : string)
| zap_Int64 (k : string) (v : Z)
| zap_Error (err : error).

(** ** Calls made by the handler, in the order it makes them *)

Inductive Event :=
| EvLog (l : Level) (msg : string) (fields : list Field)
| EvOpen (filename : string)
| EvRead (len : nat)
| EvClose
| EvConvert (content : bytes)
| EvConvertWithOptions (content : bytes) (tenant prefix : string)
| EvCreate (ctx : Context_) (p : Ptr) (v : MCPConfig)
| EvNotifyUpdate (ctx : Context_) (p : Ptr) (v : MCPConfig)
| EvDatabase (method : string)
| EvRespond (r : Response).

(** ** The state of the world and the handler monad *)

Record World := {
  w_db : DBState;
  w_store : StoreState;
  w_notifier : NotifierState;
  w_heap : Heap;
  w_next : Ptr                    (* the next address the allocator hands out *)
}.

Record St := {
  world : World;
  trace : list Event
}.

Definition M (A : Type) := St -> Step A * St.

Definition ret {A} (a : A) : M A := fun s => (Next a, s).

Definition bind {A B} (m : M A) (k : A -> M B) : M B :=
  fun s =>
    match m s with
    | (Next a, s') => k a s'
    | (Returned, s') => (Returned, s')
    | (Panicked msg, s') => (Panicked msg, s')
    end.

(** Go's [return] in a function without results. *)
Definition return_ {A} : M A := fun s => (Returned, s).

Definition panic {A} (msg : string) : M A := fun s => (Panicked msg, s).

(** [defer d]: [d] runs when the rest of the function, [body], is over,
    however it ended. *)
Definition defer {A} (d : M unit) (body : M A) : M A :=
  fun s =>
    let (r, s1) := body s in
    let (_, s2) := d s1 in
    (r, s2).

Definition emit (e : Event) : M unit :=
  fun s => (Next tt, {| world := world s; trace := (trace s ++ [e])%list |}).

Definition get_world : M World := fun s => (Next (world s), s).

Definition put_world (w : World) : M unit :=
  fun s => (Next tt, {| world := w; trace := trace s |}).

End Handler.

Declare Scope go_scope.
Delimit Scope go_scope with go.
Notation "x <- m ;; k" := (bind m (fun x => k))
  (at level 61, m at next level, right associativity) : go_scope.
Notation "m ;; k" := (bind m (fun _ => k))
  (at level 61, right associativity) : go_scope.

Section ImportHandler.
Context `{Externals}.
Local Open Scope go_scope.

(** ** Primitive statements *)

(** [h.logger.Info], [h.logger.Debug], [h.logger.Error] *)
Definition logger_Info (lg : Logger) (msg : string) (fields : list Field) : M unit :=
  emit (EvLog Info msg fields).
Definition logger_Debug (lg : Logger) (msg : string) (fields : list Field) : M unit :=
  emit (EvLog Debug msg fields).
Definition logger_Error (lg : Logger) (msg : string) (fields : list Field) : M unit :=
  emit (EvLog Error msg fields).

(** [file.Open()] *)
Definition file_Open (file : FileHeader) : M (File + error) :=
  emit (EvOpen (Filename file)) ;;
  ret (Open file).

(** [make([]byte, n)]; a negative length panics at run time. *)
Definition make (n : Z) : M bytes :=
  if (n <? 0)%Z then panic "makeslice: len out of range"
  else ret (zeroed (Z.to_nat n)).

(** [f.Read(p)]: the slice as the call leaves it, the count and the error. *)
Definition f_Read (f : File) (p : bytes) : M (bytes * nat * option error) :=
  emit (EvRead (List.length p)) ;;
  let (chunk, err) := Read f (List.length p) in
  ret (copy p chunk, Nat.min (List.length p) (List.length chunk), err).

(** [f.Close()], whose result the deferred call drops. *)
Definition f_Close (f : File) : M unit :=
  emit EvClose.

(** A configuration built by the converter is a new object on the heap. *)
Definition alloc (v : MCPConfig) : M Ptr :=
  fun s =>
    let w := world s in
    let p := w_next w in
    (Next p,
     {| world := {| w_db := w_db w; w_store := w_store w;
                    w_notifier := w_notifier w;
                    w_heap := heap_set (w_heap w) p v;
                    w_next := S p |};
        trace := trace s |}).

Definition returned (r : MCPConfig + error) : M (Ptr + error) :=
  match r with
  | inl v => p <- alloc v ;; ret (inl p)
  | inr e => ret (inr e)
  end.

(** [converter.Convert(content)] *)
Definition converter_Convert (cv : Converter) (content : bytes) : M (Ptr + error) :=
  emit (EvConvert content) ;;
  returned (Convert cv content).

(** [converter.ConvertWithOptions(content, tenant, prefix)] *)
Definition converter_ConvertWithOptions (cv : Converter) (content : bytes)
    (tenant prefix : string) : M (Ptr + error) :=
  emit (EvConvertWithOptions content tenant prefix) ;;
  returned (ConvertWithOptions cv content tenant prefix).

(** [config.Name] *)
Definition config_Name (config : Ptr) : M string :=
  w <- get_world ;;
  ret (Name (w_heap w config)).

(** [h.store.Create(ctx, config)] *)
Definition store_Create (st : Store) (ctx : Context_) (config : Ptr) : M (option error) :=
  w <- get_world ;;
  emit (EvCreate ctx config (w_heap w config)) ;;
  let '(err, ss, hp) := Create st ctx config (w_store w) (w_heap w) in
  put_world {| w_db := w_db w; w_store := ss; w_notifier := w_notifier w;
               w_heap := hp; w_next := w_next w |} ;;
  ret err.

(** [h.notifier.NotifyUpdate(ctx, config)] *)
Definition notifier_NotifyUpdate (nt : Notifier) (ctx : Context_) (config : Ptr)
    : M (option error) :=
  w <- get_world ;;
  emit (EvNotifyUpdate ctx config (w_heap w config)) ;;
  let '(err, ns, hp) := NotifyUpdate nt ctx config (w_notifier w) (w_heap w) in
  put_world {| w_db := w_db w; w_store := w_store w; w_notifier := ns;
               w_heap := hp; w_next := w_next w |} ;;
  ret err.

(** [i18n.RespondWithError(c, e)] *)
Definition RespondWithError (c : GinContext) (e : ErrorWithParams) : M unit :=
  emit (EvRespond (ErrorResponse e)).

(** [b.Send(c)] *)
Definition Send (b : SuccessBuilder) (c : GinContext) : M unit :=
  w <- get_world ;;
  emit (EvRespond
          (CreatedResponse (sb_msg b)
             (map (fun kv => (fst kv, serialise (w_heap w) (snd kv))) (sb_data b)))).

(** ** The handler *)

(** [OpenAPI handles OpenAPI related operations] *)
Record OpenAPI := {
  db : Database;
  store : Store;
  notifier : Notifier;
  logger : Logger
}.

(** [NewOpenAPI creates a new OpenAPI handler] *)
Definition NewOpenAPI (db : Database) (store : Store) (ntf : Notifier)
    (logger : Logger) : OpenAPI :=
  {| db := db; store := store; notifier := ntf; logger := logger |}.

(** [openapi.NewConverter()] *)
Variable NewConverter : Converter.

(** [HandleImport handles OpenAPI import requests] *)
Definition HandleImport (h : OpenAPI) (c : GinContext) : M unit :=
  logger_Info (logger h) "handling OpenAPI import request" [] ;;
  (* Get the file from the request *)
  match FormFile c "file" with
  | inr err =>
      logger_Error (logger h) "failed to get file from request" [zap_Error err] ;;
      RespondWithError c
        (WithParam ErrBadRequest "Reason" ("Failed to get file: " ++ err)) ;;
      return_
  | inl file =>
  logger_Debug (logger h) "processing OpenAPI file"
    [zap_String "filename" (Filename file); zap_Int64 "size" (Size file)] ;;
  (* Open the file *)
  opened <- file_Open file ;;
  match opened with
  | inr err =>
      logger_Error (logger h) "failed to open uploaded file"
        [zap_String "filename" (Filename file); zap_Error err] ;;
      RespondWithError c
        (WithParam ErrInternalServer "Reason" ("Failed to open file: " ++ err)) ;;
      return_
  | inl f =>
  defer (f_Close f) (
  (* Read the file content *)
  content <- make (Size file) ;;
  rd <- f_Read f content ;;
  let '(content, _, rerr) := rd in
  match rerr with
  | Some err =>
      logger_Error (logger h) "failed to read file content"
        [zap_String "filename" (Filename file); zap_Error err] ;;
      RespondWithError c
        (WithParam ErrInternalServer "Reason" ("Failed to read file: " ++ err)) ;;
      return_
  | None =>
  (* Read tenant and prefix from form *)
  let tenant := PostForm c "tenantId" in
  let prefix := PostForm c "prefix" in
  logger_Debug (logger h) "creating OpenAPI converter" [] ;;
  let converter := NewConverter in
  (* Use provided tenant/prefix if not empty, else use default logic *)
  converted <-
    (if (tenant =? "") && (prefix =? "")
     then converter_Convert converter content
     else converter_ConvertWithOptions converter content tenant prefix) ;;
  match converted with
  | inr err =>
      logger_Error (logger h) "failed to convert OpenAPI specification"
        [zap_Error err] ;;
      RespondWithError c
        (WithParam ErrBadRequest "Reason"
           ("Failed to convert OpenAPI specification: " ++ err)) ;;
      return_
  | inl config =>
  name <- config_Name config ;;
  logger_Info (logger h) "OpenAPI specification converted successfully"
    [zap_String "server_name" name] ;;
  (* Create the MCP server configuration *)
  logger_Debug (logger h) "creating MCP server configuration" [] ;;
  cerr <- store_Create (store h) (Request_Context c) config ;;
  match cerr with
  | Some err =>
      name <- config_Name config ;;
      logger_Error (logger h) "failed to create MCP server"
        [zap_String "server_name" name; zap_Error err] ;;
      RespondWithError c
        (WithParam ErrInternalServer "Reason"
           ("Failed to create MCP server: " ++ err)) ;;
      return_
  | None =>
  (* Notify the gateway about the update *)
  logger_Debug (logger h) "notifying gateway about the update" [] ;;
  nerr <- notifier_NotifyUpdate (notifier h) (Request_Context c) config ;;
  match nerr with
  | Some err =>
      name <- config_Name config ;;
      logger_Error (logger h) "failed to notify gateway"
        [zap_String "server_name" name; zap_Error err] ;;
      RespondWithError c
        (WithParam ErrInternalServer "Reason"
           ("Failed to notify gateway: " ++ err)) ;;
      return_
  | None =>
  name <- config_Name config ;;
  logger_Info (logger h) "OpenAPI imported successfully"
    [zap_String "server_name" name] ;;
  Send (With "config" (VConfig config)
          (With "status" (VString "success")
             (Created SuccessOpenAPIImported))) c
  end end end end) end end.

(** One request served in the world [w]: how the handler ended, the world
    it leaves and the calls it made. *)
Definition serve (h : OpenAPI) (c : GinContext) (w : World) : Step unit * St :=
  HandleImport h c {| world := w; trace := [] |}.

End ImportHandler.

(** ** Reading a trace *)

Section Observations.
Context `{Externals}.

(** The responses written to the client. *)
Fixpoint responses (tr : list Event) : list Response :=
  match tr with
  | [] => []
  | EvRespond r :: tr' => r :: responses tr'
  | _ :: tr' => responses tr'
  end.

(** The calls of the converter, whichever entry point they use. *)
Fixpoint conversions (tr : list Event) : list Event :=
  match tr with
  | [] => []
  | EvConvert content :: tr' => EvConvert content :: conversions tr'
  | EvConvertWithOptions content t p :: tr' =>
      EvConvertWithOptions content t p :: conversions tr'
  | _ :: tr' => conversions tr'
  end.

(** The byte slices handed to the converter. *)
Fixpoint handed (tr : list Event) : list bytes :=
  match tr with
  | [] => []
  | EvConvert content :: tr' => content :: handed tr'
  | EvConvertWithOptions content _ _ :: tr' => content :: handed tr'
  | _ :: tr' => handed tr'
  end.

(** The calls of [Create]: context, pointer, and the object as the store
    finds it. *)
Fixpoint creates (tr : list Event) : list (Context_ * Ptr * MCPConfig) :=
  match tr with
  | [] => []
  | EvCreate ctx p v :: tr' => (ctx, p, v) :: creates tr'
  | _ :: tr' => creates tr'
  end.

(** The calls of [NotifyUpdate], likewise. *)
Fixpoint notifications (tr : list Event) : list (Context_ * Ptr * MCPConfig) :=
  match tr with
  | [] => []
  | EvNotifyUpdate ctx p v :: tr' => (ctx, p, v) :: notifications tr'
  | _ :: tr' => notifications tr'
  end.

(** The [Read] calls on the upload, by the length of the slice given. *)
Fixpoint reads (tr : list Event) : list nat :=
  match tr with
  | [] => []
  | EvRead n :: tr' => n :: reads tr'
  | _ :: tr' => reads tr'
  end.

(** The methods called on the database. *)
Fixpoint database_calls (tr : list Event) : list string :=
  match tr with
  | [] => []
  | EvDatabase m :: tr' => m :: database_calls tr'
  | _ :: tr' => database_calls tr'
  end.

(** The calls of store and notifier together, in order: [true] marks a
    [Create], [false] a [NotifyUpdate]. *)
Fixpoint side_effects (tr : list Event) : list bool :=
  match tr with
  | [] => []
  | EvCreate _ _ _ :: tr' => true :: side_effects tr'
  | EvNotifyUpdate _ _ _ :: tr' => false :: side_effects tr'
  | _ :: tr' => side_effects tr'
  end.

(** The configuration a response carries, if it carries one. *)
Fixpoint config_of (data : list (string * Payload)) : option (Ptr * MCPConfig) :=
  match data with
  | [] => None
  | (_, PConfig p v) :: _ => Some (p, v)
  | _ :: data' => config_of data'
  end.

Definition carried (r : Response) : option (Ptr * MCPConfig) :=
  match r with
  | ErrorResponse _ => None
  | CreatedResponse _ data => config_of data
  end.

(** The reason an error response gives. *)
Definition reason (r : Response) : option string :=
  match r with
  | ErrorResponse e =>
      match err_params e with
      | (_, v) :: _ => Some v
      | [] => None
      end
  | CreatedResponse _ _ => None
  end.

(** The result of the conversion call that the form values select
    (lines 78 to 82 of the handler). *)
Definition conversion (cv : Converter) (content : bytes) (tenant prefix : string)
    : MCPConfig + error :=
  if (tenant =? "") && (prefix =? "")
  then Convert cv content
  else ConvertWithOptions cv content tenant prefix.

(** The request carries a file that opens and whose single [Read] leaves
    [content] in the slice without an error: the handler gets as far as the
    converter with these bytes. *)
Definition Uploaded (c : GinContext) (content : bytes) : Prop :=
  exists file f chunk,
    FormFile c "file" = inl file /\
    Open file = inl f /\
    (0 <= Size file)%Z /\
    Read f (Z.to_nat (Size file)) = (chunk, None) /\
    content = copy (zeroed (Z.to_nat (Size file))) chunk.

(** What every request with a readable upload does first. *)
Definition prelude (file : FileHeader) : list Event :=
  [ EvLog Info "handling OpenAPI import request" [];
    EvLog Debug "processing OpenAPI file"
      [zap_String "filename" (Filename file); zap_Int64 "size" (Size file)];
    EvOpen (Filename file);
    EvRead (Z.to_nat (Size file));
    EvLog Debug "creating OpenAPI converter" [] ].

Definition conversion_call (content : bytes) (tenant prefix : string) : Event :=
  if (tenant =? "") && (prefix =? "")
  then EvConvert content
  else EvConvertWithOptions content tenant prefix.

(** The files opened, by name, and the number of [Close] calls. *)
Fixpoint opens (tr : list Event) : list string :=
  match tr with
  | [] => []
  | EvOpen name :: tr' => name :: opens tr'
  | _ :: tr' => opens tr'
  end.

Fixpoint closes (tr : list Event) : nat :=
  match tr with
  | [] => 0
  | EvClose :: tr' => S (closes tr')
  | _ :: tr' => closes tr'
  end.

(** The errors given to [zap.Error] in the records logged at level
    [Error]. *)
Fixpoint field_errors (fields : list Field) : list error :=
  match fields with
  | [] => []
  | zap_Error err :: fields' => err :: field_errors fields'
  | _ :: fields' => field_errors fields'
  end.

Fixpoint logged_errors (tr : list Event) : list error :=
  match tr with
  | [] => []
  | EvLog Error _ fields :: tr' => (field_errors fields ++ logged_errors tr')%list
  | _ :: tr' => logged_errors tr'
  end.

End Observations.

(** ** A concrete world, to run the handler in *)

Module Demo.

Record Config := {
  cfg_name : string;
  cfg_tenant : string;
  cfg_prefix : string
}.

#[export] Instance externals : Externals := {|
  Context_ := nat;
  MCPConfig := Config;
  Name := cfg_name;
  Database := unit;
  Logger := unit;
  DBState := list string;
  StoreState := list string;
  NotifierState := list string
|}.

(** A store that keeps the names it was given and refuses a name twice. *)
Definition memory_store : Store := {|
  Create := fun _ p ss hp =>
    if existsb (String.eqb (cfg_name (hp p))) ss
    then (Some "already exists", ss, hp)
    else (None, cfg_name (hp p) :: ss, hp)
|}.

(** A notifier that delivers, and one whose gateway is down. *)
Definition good_notifier : Notifier := {|
  NotifyUpdate := fun _ p ns hp => (None, cfg_name (hp p) :: ns, hp)
|}.

Definition down_notifier : Notifier := {|
  NotifyUpdate := fun _ _ ns hp => (Some "gateway unreachable", ns, hp)
|}.

(** A converter that accepts a document opening with a brace, naming the
    server after its own convention or after the options given, and
    rejects every other document. *)
Definition converter : Converter := {|
  Convert := fun content =>
    match content with
    | [] => inr "empty document"
    | x7b :: _ => inl {| cfg_name := "petstore"; cfg_tenant := "default";
                         cfg_prefix := "/api" |}
    | _ => inr "not a JSON object"
    end;
  ConvertWithOptions := fun content tenant prefix =>
    match content with
    | [] => inr "empty document"
    | x7b :: _ => inl {| cfg_name := "petstore"; cfg_tenant := tenant;
                         cfg_prefix := prefix |}
    | _ => inr "not a JSON object"
    end
|}.

Definition blank : Config :=
  {| cfg_name := ""; cfg_tenant := ""; cfg_prefix := "" |}.

Definition world0 : World :=
  {| w_db := ["users"]; w_store := []; w_notifier := [];
     w_heap := fun _ => blank; w_next := 1 |}.

(** An upload of [size] announced bytes held in memory as [data].  Its
    first [Read] delivers as much of [data] as the slice takes, the way a
    reader over a section of memory does; when there is nothing to
    deliver it answers with the end-of-file error instead. *)
Definition upload (size : Z) (data : bytes) : FileHeader :=
  {| Filename := "api.yaml"; Size := size;
     Open := inl {| Read := fun n =>
                      (firstn n data,
                       match data with
                       | [] => Some "EOF"
                       | _ :: _ => None
                       end);
                    Close := None |} |}.

Definition request (file : FileHeader) (tenant prefix : string) : GinContext :=
  {| FormFile := fun k => if k =? "file" then inl file else inr "http: no such file";
     PostForm := fun k =>
       if k =? "tenantId" then tenant else if k =? "prefix" then prefix else "";
     Request_Context := 7 |}.

Definition handler (ntf : Notifier) : OpenAPI :=
  NewOpenAPI tt memory_store ntf tt.

Definition doc : bytes := [x7b; x7d].

(** Three bytes that are no document the converter takes. *)
Definition junk : bytes := [x3c; x68; x3e].

Definition petstore (tenant prefix : string) : Config :=
  {| cfg_name := "petstore"; cfg_tenant := tenant; cfg_prefix := prefix |}.

(** A world whose store already holds a server called petstore. *)
Definition world1 : World :=
  {| w_db := ["users"]; w_store := ["petstore"]; w_notifier := [];
     w_heap := fun _ => blank; w_next := 4 |}.

(** A request without a file part, an upload that cannot be opened, and
    one whose [Read] delivers its bytes together with an end-of-file
    error. *)
Definition request_without_file : GinContext :=
  {| FormFile := fun _ => inr "http: no such file";
     PostForm := fun _ => "";
     Request_Context := 7 |}.

Definition unopenable : FileHeader :=
  {| Filename := "api.yaml"; Size := 2; Open := inr "permission denied" |}.

Definition eof_file (data : bytes) : File :=
  {| Read := fun n => (firstn n data, Some "EOF"); Close := None |}.

Definition eof_upload (size : Z) (data : bytes) : FileHeader :=
  {| Filename := "api.yaml"; Size := size; Open := inl (eof_file data) |}.

End Demo.

(** ** Running the handler symbolically *)

Lemma zeroed_length (n : nat) : List.length (zeroed n) = n.
Proof. apply repeat_length. Qed.

Lemma copy_length (dst src : bytes) : List.length (copy dst src) = List.length dst.
Proof.
  unfold copy. rewrite length_app, length_firstn, length_skipn. lia.
Qed.

(** A short delivery leaves the tail of the slice as it was. *)
Lemma copy_short (dst src : bytes) :
  List.length src <= List.length dst ->
  copy dst src = (src ++ skipn (List.length src) dst)%list.
Proof.
  intros Hle. unfold copy. now rewrite firstn_all2.
Qed.

Lemma skipn_zeroed (k n : nat) : skipn k (zeroed n) = zeroed (n - k).
Proof.
  unfold zeroed. revert k. induction n as [|n IH]; intros [|k]; simpl; auto.
Qed.

Lemma heap_set_same `{Externals} (hp : Heap) (p : Ptr) (v : MCPConfig) :
  heap_set hp p v p = v.
Proof. unfold heap_set. now rewrite Nat.eqb_refl. Qed.

Ltac unfold_handler :=
  cbv beta iota zeta delta
    [serve HandleImport bind ret return_ panic defer emit get_world put_world
     logger_Info logger_Debug logger_Error file_Open make f_Read f_Close
     alloc returned converter_Convert converter_ConvertWithOptions config_Name
     store_Create notifier_NotifyUpdate RespondWithError Send];
  cbn [world trace w_db w_store w_notifier w_heap w_next fst snd app].

(** Split on whatever the handler branches on next. *)
Ltac handler_case :=
  match goal with
  | |- context [FormFile ?x ?k] => destruct (FormFile x k) as [?file|?err] eqn:?
  | |- context [Open ?x] => destruct (Open x) as [?f|?err] eqn:?
  | |- context [(?n <? 0)%Z] => destruct (n <? 0)%Z eqn:?
  | |- context [Read ?x ?n] => destruct (Read x n) as [?chunk [?err|]] eqn:?
  | |- context [?a && ?b] => destruct (a && b) eqn:?
  | |- context [Convert ?k ?x] => destruct (Convert k x) as [?v|?err] eqn:?
  | |- context [ConvertWithOptions ?k ?x ?a ?b] =>
      destruct (ConvertWithOptions k x a b) as [?v|?err] eqn:?
  | |- context [Create ?s ?x ?q ?a ?b] =>
      destruct (Create s x q a b) as [[[?err|] ?ss] ?hp] eqn:?
  | |- context [NotifyUpdate ?s ?x ?q ?a ?b] =>
      destruct (NotifyUpdate s x q a b) as [[[?err|] ?ns] ?hp] eqn:?
  end; unfold_handler.

(** The steps up to the converter, for a request whose upload reads. *)
Ltac run_upload :=
  unfold_handler;
  match goal with
  | Hfile : FormFile _ _ = inl _ |- _ => rewrite Hfile
  end; unfold_handler;
  match goal with
  | Hopen : Open _ = inl _ |- _ => rewrite Hopen
  end; unfold_handler;
  match goal with
  | |- context [(?n <? 0)%Z] =>
      destruct (Z.ltb_spec n 0) as [?Hneg|_]; [lia|]
  end; unfold_handler;
  rewrite zeroed_length;
  match goal with
  | Hread : Read _ _ = (_, None) |- _ => rewrite Hread
  end; unfold_handler.

Section Paths.
Context `{Externals}.
Variables (cv : Converter) (h : OpenAPI) (c : GinContext) (w : World).
Variables (file : FileHeader) (f : File) (chunk : bytes).
Hypothesis Hfile : FormFile c "file" = inl file.
Hypothesis Hopen : Open file = inl f.
Hypothesis Hsize : (0 <= Size file)%Z.
Hypothesis Hread : Read f (Z.to_nat (Size file)) = (chunk, None).

Let content := copy (zeroed (Z.to_nat (Size file))) chunk.
Let tenant := PostForm c "tenantId".
Let prefix := PostForm c "prefix".
Let ctx := Request_Context c.
Let p := w_next w.

Lemma path_rejected (e : error) :
  conversion cv content tenant prefix = inr e ->
  serve cv h c w =
  (Returned,
   {| world := w;
      trace := (prelude file ++
        [ conversion_call content tenant prefix;
          EvLog Error "failed to convert OpenAPI specification" [zap_Error e];
          EvRespond (ErrorResponse (WithParam ErrBadRequest "Reason"
            ("Failed to convert OpenAPI specification: " ++ e)));
          EvClose ])%list |}).
Proof.
  unfold conversion, conversion_call, content, tenant, prefix. intros Hconv.
  run_upload.
  destruct (_ && _); unfold_handler; rewrite Hconv; reflexivity.
Qed.

Lemma path_store_failed (v : MCPConfig) (e : error) (ss : StoreState) (hp : Heap) :
  conversion cv content tenant prefix = inl v ->
  Create (store h) ctx p (w_store w) (heap_set (w_heap w) p v) = (Some e, ss, hp) ->
  serve cv h c w =
  (Returned,
   {| world := {| w_db := w_db w; w_store := ss; w_notifier := w_notifier w;
                  w_heap := hp; w_next := S p |};
      trace := (prelude file ++
        [ conversion_call content tenant prefix;
          EvLog Info "OpenAPI specification converted successfully"
            [zap_String "server_name" (Name v)];
          EvLog Debug "creating MCP server configuration" [];
          EvCreate ctx p v;
          EvLog Error "failed to create MCP server"
            [zap_String "server_name" (Name (hp p)); zap_Error e];
          EvRespond (ErrorResponse (WithParam ErrInternalServer "Reason"
            ("Failed to create MCP server: " ++ e)));
          EvClose ])%list |}).
Proof.
  unfold conversion, conversion_call, content, tenant, prefix, ctx, p.
  intros Hconv Hcreate.
  run_upload.
  destruct (_ && _); unfold_handler; rewrite Hconv; unfold_handler;
    rewrite !heap_set_same;
    rewrite Hcreate; reflexivity.
Qed.

Lemma path_notify_failed (v : MCPConfig) (e : error) (ss : StoreState)
    (ns : NotifierState) (hp1 hp2 : Heap) :
  conversion cv content tenant prefix = inl v ->
  Create (store h) ctx p (w_store w) (heap_set (w_heap w) p v) = (None, ss, hp1) ->
  NotifyUpdate (notifier h) ctx p (w_notifier w) hp1 = (Some e, ns, hp2) ->
  serve cv h c w =
  (Returned,
   {| world := {| w_db := w_db w; w_store := ss; w_notifier := ns;
                  w_heap := hp2; w_next := S p |};
      trace := (prelude file ++
        [ conversion_call content tenant prefix;
          EvLog Info "OpenAPI specification converted successfully"
            [zap_String "server_name" (Name v)];
          EvLog Debug "creating MCP server configuration" [];
          EvCreate ctx p v;
          EvLog Debug "notifying gateway about the update" [];
          EvNotifyUpdate ctx p (hp1 p);
          EvLog Error "failed to notify gateway"
            [zap_String "server_name" (Name (hp2 p)); zap_Error e];
          EvRespond (ErrorResponse (WithParam ErrInternalServer "Reason"
            ("Failed to notify gateway: " ++ e)));
          EvClose ])%list |}).
Proof.
  unfold conversion, conversion_call, content, tenant, prefix, ctx, p.
  intros Hconv Hcreate Hnotify.
  run_upload.
  destruct (_ && _); unfold_handler; rewrite Hconv; unfold_handler;
    rewrite !heap_set_same;
    rewrite Hcreate; unfold_handler; rewrite Hnotify; reflexivity.
Qed.

Lemma path_imported (v : MCPConfig) (ss : StoreState) (ns : NotifierState)
    (hp1 hp2 : Heap) :
  conversion cv content tenant prefix = inl v ->
  Create (store h) ctx p (w_store w) (heap_set (w_heap w) p v) = (None, ss, hp1) ->
  NotifyUpdate (notifier h) ctx p (w_notifier w) hp1 = (None, ns, hp2) ->
  serve cv h c w =
  (Next tt,
   {| world := {| w_db := w_db w; w_store := ss; w_notifier := ns;
                  w_heap := hp2; w_next := S p |};
      trace := (prelude file ++
        [ conversion_call content tenant prefix;
          EvLog Info "OpenAPI specification converted successfully"
            [zap_String "server_name" (Name v)];
          EvLog Debug "creating MCP server configuration" [];
          EvCreate ctx p v;
          EvLog Debug "notifying gateway about the update" [];
          EvNotifyUpdate ctx p (hp1 p);
          EvLog Info "OpenAPI imported successfully"
            [zap_String "server_name" (Name (hp2 p))];
          EvRespond (CreatedResponse SuccessOpenAPIImported
            [("status", PString "success"); ("config", PConfig p (hp2 p))]);
          EvClose ])%list |}).
Proof.
  unfold conversion, conversion_call, content, tenant, prefix, ctx, p.
  intros Hconv Hcreate Hnotify.
  run_upload.
  destruct (_ && _); unfold_handler; rewrite Hconv; unfold_handler;
    rewrite !heap_set_same;
    rewrite Hcreate; unfold_handler; rewrite Hnotify; reflexivity.
Qed.

End Paths.

(** Follow the handler of a request whose upload reads, whatever the
    converter, the store and the notifier answer. *)
Ltac by_paths cv h c w file f chunk Hfile Hopen Hsize Hread :=
  let v := fresh "v" in
  let e := fresh "e" in
  let ss := fresh "ss" in
  let ns := fresh "ns" in
  let hp1 := fresh "hp1" in
  let hp2 := fresh "hp2" in
  let Hconv := fresh "Hconv" in
  let Hcreate := fresh "Hcreate" in
  let Hnotify := fresh "Hnotify" in
  destruct (conversion cv (copy (zeroed (Z.to_nat (Size file))) chunk)
              (PostForm c "tenantId") (PostForm c "prefix"))
    as [v|e] eqn:Hconv;
  [ destruct (Create (store h) (Request_Context c) (w_next w) (w_store w)
                (heap_set (w_heap w) (w_next w) v))
      as [[[e|] ss] hp1] eqn:Hcreate;
    [ rewrite (path_store_failed cv h c w file f chunk Hfile Hopen Hsize Hread
                 v e ss hp1 Hconv Hcreate)
    | destruct (NotifyUpdate (notifier h) (Request_Context c) (w_next w)
                  (w_notifier w) hp1)
        as [[[e|] ns] hp2] eqn:Hnotify;
      [ rewrite (path_notify_failed cv h c w file f chunk Hfile Hopen Hsize
                   Hread v e ss ns hp1 hp2 Hconv Hcreate Hnotify)
      | rewrite (path_imported cv h c w file f chunk Hfile Hopen Hsize
                   Hread v ss ns hp1 hp2 Hconv Hcreate Hnotify) ] ]
  | rewrite (path_rejected cv h c w file f chunk Hfile Hopen Hsize Hread
               e Hconv) ].

Section Workflow.
Context `{Externals}.
Variable cv : Converter.

(** The converter is called once for a request whose upload reads, through
    the entry point the form values select. *)
Lemma conversions_serve (h : OpenAPI) (c : GinContext) (w : World) (content : bytes) :
  Uploaded c content ->
  conversions (trace (snd (serve cv h c w))) =
  [conversion_call content (PostForm c "tenantId") (PostForm c "prefix")].
Proof.
  intros (file & f & chunk & Hfile & Hopen & Hsize & Hread & ->).
  by_paths cv h c w file f chunk Hfile Hopen Hsize Hread;
    unfold conversion_call; destruct (_ && _); reflexivity.
Qed.

(** ** The addressing rule *)

(** C1. For a request whose upload reads as [content], the handler calls
    the converter exactly once: through [Convert content] when the tenant
    and the prefix of the form are both empty, and through
    [ConvertWithOptions content tenant prefix], with both form values as
    they are, in every other case.  With tenant ["t"] and an empty prefix
    the empty prefix is what the converter is given. *)
Theorem conversion_entry_point (h : OpenAPI) (c : GinContext) (w : World)
    (content : bytes) :
  Uploaded c content ->
  let tenant := PostForm c "tenantId" in
  let prefix := PostForm c "prefix" in
  let tr := trace (snd (serve cv h c w)) in
  (tenant = "" /\ prefix = "" -> conversions tr = [EvConvert content]) /\
  (~ (tenant = "" /\ prefix = "") ->
   conversions tr = [EvConvertWithOptions content tenant prefix]) /\
  (tenant = "t" -> prefix = "" ->
   conversions tr = [EvConvertWithOptions content "t" ""]).
Proof.
  intros Hup tenant prefix tr.
  unfold tr. rewrite (conversions_serve h c w content Hup).
  fold tenant prefix. unfold conversion_call.
  repeat split.
  - intros [-> ->]. reflexivity.
  - intros Hne.
    destruct (String.eqb_spec tenant ""); destruct (String.eqb_spec prefix "");
      simpl; try reflexivity.
    exfalso. apply Hne. now split.
  - intros -> ->. reflexivity.
Qed.

(** ** Failures *)


(** C8. Two requests that upload the same bytes with the same tenant and
    prefix, served by any two handlers in any two worlds, are rejected
    alike when the conversion of those bytes fails: both get the same
    response, the bad-request error with the converter's reason. *)
Theorem rejection_deterministic (h1 h2 : OpenAPI) (c1 c2 : GinContext)
    (w1 w2 : World) (content : bytes) (e : error) :
  Uploaded c1 content ->
  Uploaded c2 content ->
  PostForm c1 "tenantId" = PostForm c2 "tenantId" ->
  PostForm c1 "prefix" = PostForm c2 "prefix" ->
  conversion cv content (PostForm c1 "tenantId") (PostForm c1 "prefix") = inr e ->
  responses (trace (snd (serve cv h1 c1 w1))) =
    responses (trace (snd (serve cv h2 c2 w2))) /\
  responses (trace (snd (serve cv h1 c1 w1))) =
    [ErrorResponse (WithParam ErrBadRequest "Reason"
       ("Failed to convert OpenAPI specification: " ++ e))].
Proof.
  intros (file1 & f1 & chunk1 & Hfile1 & Hopen1 & Hsize1 & Hread1 & E1)
         (file2 & f2 & chunk2 & Hfile2 & Hopen2 & Hsize2 & Hread2 & E2)
         Ht Hp Hconv1.
  assert (Hconv2 : conversion cv content (PostForm c2 "tenantId")
                     (PostForm c2 "prefix") = inr e)
    by (rewrite <- Ht, <- Hp; exact Hconv1).
  rewrite E1 in Hconv1. rewrite E2 in Hconv2.
  rewrite (path_rejected cv h1 c1 w1 file1 f1 chunk1 Hfile1 Hopen1 Hsize1 Hread1
             e Hconv1).
  rewrite (path_rejected cv h2 c2 w2 file2 f2 chunk2 Hfile2 Hopen2 Hsize2 Hread2
             e Hconv2).
  unfold conversion_call.
  do 2 destruct (_ && _); split; reflexivity.
Qed.

End Workflow.

Section Outcomes.
Context `{Externals}.
Variable cv : Converter.

(** C4. When the conversion yields a configuration and [Create] returns
    the error [e], the handler returns after answering with the
    internal-server error whose reason is ["Failed to create MCP server: "]
    followed by [e].  [NotifyUpdate] is not called and the notifier is left
    alone; the converter and [Create] were each called once, so nothing is
    tried again, and the response carries no configuration. *)
Theorem store_failure_stops (h : OpenAPI) (c : GinContext) (w : World)
    (content : bytes) (v : MCPConfig) (e : error) (ss : StoreState) (hp : Heap) :
  Uploaded c content ->
  conversion cv content (PostForm c "tenantId") (PostForm c "prefix") = inl v ->
  Create (store h) (Request_Context c) (w_next w) (w_store w)
    (heap_set (w_heap w) (w_next w) v) = (Some e, ss, hp) ->
  let r := serve cv h c w in
  fst r = Returned /\
  responses (trace (snd r)) =
    [ErrorResponse (WithParam ErrInternalServer "Reason"
       ("Failed to create MCP server: " ++ e))] /\
  Forall (fun rsp => carried rsp = None) (responses (trace (snd r))) /\
  notifications (trace (snd r)) = [] /\
  w_notifier (world (snd r)) = w_notifier w /\
  creates (trace (snd r)) = [(Request_Context c, w_next w, v)] /\
  List.length (conversions (trace (snd r))) = 1.
Proof.
  intros (file & f & chunk & Hfile & Hopen & Hsize & Hread & ->) Hconv Hcreate r.
  unfold r.
  rewrite (path_store_failed cv h c w file f chunk Hfile Hopen Hsize Hread
             v e ss hp Hconv Hcreate).
  unfold conversion_call. destruct (_ && _); repeat split; repeat constructor.
Qed.

(** C3, as the code has it. When [Create] succeeds and [NotifyUpdate]
    returns the error [e], the handler returns after answering with the
    internal-server error whose reason is ["Failed to notify gateway: "]
    followed by [e]; that response carries the reason and no
    configuration.  Nothing is rolled back: [Create] was called once,
    before the notification, no call of the store follows it, and the
    store is left in the state [Create] gave it. *)
Theorem notify_failure_keeps_store (h : OpenAPI) (c : GinContext) (w : World)
    (content : bytes) (v : MCPConfig) (e : error) (ss : StoreState)
    (ns : NotifierState) (hp1 hp2 : Heap) :
  Uploaded c content ->
  conversion cv content (PostForm c "tenantId") (PostForm c "prefix") = inl v ->
  Create (store h) (Request_Context c) (w_next w) (w_store w)
    (heap_set (w_heap w) (w_next w) v) = (None, ss, hp1) ->
  NotifyUpdate (notifier h) (Request_Context c) (w_next w) (w_notifier w) hp1
    = (Some e, ns, hp2) ->
  let r := serve cv h c w in
  fst r = Returned /\
  responses (trace (snd r)) =
    [ErrorResponse (WithParam ErrInternalServer "Reason"
       ("Failed to notify gateway: " ++ e))] /\
  Forall (fun rsp => carried rsp = None) (responses (trace (snd r))) /\
  side_effects (trace (snd r)) = [true; false] /\
  creates (trace (snd r)) = [(Request_Context c, w_next w, v)] /\
  w_store (world (snd r)) = ss.
Proof.
  intros (file & f & chunk & Hfile & Hopen & Hsize & Hread & ->)
         Hconv Hcreate Hnotify r.
  unfold r.
  rewrite (path_notify_failed cv h c w file f chunk Hfile Hopen Hsize Hread
             v e ss ns hp1 hp2 Hconv Hcreate Hnotify).
  unfold conversion_call. destruct (_ && _); repeat split; repeat constructor.
Qed.

(** ** Success *)

(** C5. When the conversion, [Create] and [NotifyUpdate] all succeed, the
    handler runs to its end and answers with the created response that
    carries the converted configuration: the pointer the converter
    returned, serialised as the object stands when the response is sent.
    [Create] is called once and [NotifyUpdate] once, in that order, both
    with that pointer. *)
Theorem import_succeeds (h : OpenAPI) (c : GinContext) (w : World)
    (content : bytes) (v : MCPConfig) (ss : StoreState) (ns : NotifierState)
    (hp1 hp2 : Heap) :
  Uploaded c content ->
  conversion cv content (PostForm c "tenantId") (PostForm c "prefix") = inl v ->
  Create (store h) (Request_Context c) (w_next w) (w_store w)
    (heap_set (w_heap w) (w_next w) v) = (None, ss, hp1) ->
  NotifyUpdate (notifier h) (Request_Context c) (w_next w) (w_notifier w) hp1
    = (None, ns, hp2) ->
  let r := serve cv h c w in
  fst r = Next tt /\
  responses (trace (snd r)) =
    [CreatedResponse SuccessOpenAPIImported
       [("status", PString "success");
        ("config", PConfig (w_next w) (hp2 (w_next w)))]] /\
  creates (trace (snd r)) = [(Request_Context c, w_next w, v)] /\
  notifications (trace (snd r)) = [(Request_Context c, w_next w, hp1 (w_next w))] /\
  side_effects (trace (snd r)) = [true; false] /\
  (hp1 (w_next w) = v -> hp2 (w_next w) = v ->
   map carried (responses (trace (snd r))) = [Some (w_next w, v)]).
Proof.
  intros (file & f & chunk & Hfile & Hopen & Hsize & Hread & ->)
         Hconv Hcreate Hnotify r.
  unfold r.
  rewrite (path_imported cv h c w file f chunk Hfile Hopen Hsize Hread
             v ss ns hp1 hp2 Hconv Hcreate Hnotify).
  unfold conversion_call. destruct (_ && _); repeat split;
    intros _ ->; reflexivity.
Qed.

(** ** What the handler leaves alone *)

(** C6. The handler never writes the configuration.  For a request whose
    conversion yields [v], held at the pointer [p]: every call of [Create]
    receives [p] while the object is still [v]; every call of
    [NotifyUpdate] receives the same [p], the object being what [Create]
    left; and a response that carries a configuration carries the same
    [p], the object being what [NotifyUpdate] left.  So if the store and
    the notifier do not write the object either, all three see [v]. *)
Theorem config_never_written (h : OpenAPI) (c : GinContext) (w : World)
    (content : bytes) (v : MCPConfig) :
  Uploaded c content ->
  conversion cv content (PostForm c "tenantId") (PostForm c "prefix") = inl v ->
  let ctx := Request_Context c in
  let p := w_next w in
  let hp1 := snd (Create (store h) ctx p (w_store w) (heap_set (w_heap w) p v)) in
  let hp2 := snd (NotifyUpdate (notifier h) ctx p (w_notifier w) hp1) in
  let tr := trace (snd (serve cv h c w)) in
  creates tr = [(ctx, p, v)] /\
  Forall (fun x => x = (ctx, p, hp1 p)) (notifications tr) /\
  Forall (fun rsp => forall x, carried rsp = Some x -> x = (p, hp2 p))
    (responses tr) /\
  (hp1 p = v -> hp2 p = v ->
   Forall (fun x => x = (ctx, p, v)) (notifications tr) /\
   Forall (fun rsp => forall x, carried rsp = Some x -> x = (p, v))
     (responses tr)).
Proof.
  intros (file & f & chunk & Hfile & Hopen & Hsize & Hread & ->) Hconv
         ctx p hp1 hp2 tr.
  unfold tr, hp2, hp1, p, ctx.
  destruct (Create (store h) (Request_Context c) (w_next w) (w_store w)
              (heap_set (w_heap w) (w_next w) v))
    as [[[e|] ss] h1] eqn:Hcreate; cbn [snd].
  - rewrite (path_store_failed cv h c w file f chunk Hfile Hopen Hsize Hread
               v e ss h1 Hconv Hcreate).
    unfold conversion_call. destruct (_ && _); cbn;
      repeat split; repeat constructor; cbn; discriminate.
  - destruct (NotifyUpdate (notifier h) (Request_Context c) (w_next w)
                (w_notifier w) h1)
      as [[[e|] ns] h2] eqn:Hnotify; cbn [snd].
    + rewrite (path_notify_failed cv h c w file f chunk Hfile Hopen Hsize Hread
                 v e ss ns h1 h2 Hconv Hcreate Hnotify).
      unfold conversion_call. destruct (_ && _); cbn;
        repeat split; repeat constructor; cbn; try discriminate;
        intros; congruence.
    + rewrite (path_imported cv h c w file f chunk Hfile Hopen Hsize Hread
                 v ss ns h1 h2 Hconv Hcreate Hnotify).
      unfold conversion_call. destruct (_ && _); cbn;
        repeat split; repeat constructor; cbn; intros; congruence.
Qed.

(** C7. Whatever the request and however it ends, each call of [Create]
    and each call of [NotifyUpdate] is given the context of the request,
    [c.Request.Context()], itself. *)
Theorem context_passed_through (h : OpenAPI) (c : GinContext) (w : World) :
  let tr := trace (snd (serve cv h c w)) in
  Forall (fun x => fst (fst x) = Request_Context c) (creates tr) /\
  Forall (fun x => fst (fst x) = Request_Context c) (notifications tr).
Proof.
  intros tr. unfold tr. unfold_handler.
  repeat handler_case; cbn; split; repeat constructor.
Qed.

(** C10. Whatever the request and however it ends, the handler calls no
    method of the database and the database is as it was. *)
Theorem database_untouched (h : OpenAPI) (c : GinContext) (w : World) :
  database_calls (trace (snd (serve cv h c w))) = [] /\
  w_db (world (snd (serve cv h c w))) = w_db w.
Proof.
  unfold_handler.
  repeat handler_case; cbn; split; reflexivity.
Qed.

(** ** Reading the upload *)

(** C9. When the file opens and its one [Read] returns no error, the
    handler calls [Read] once, with a slice as long as the announced size,
    and hands the converter a slice of that length.  If the [Read]
    delivered fewer bytes, they are followed by zeros up to the announced
    size, and that padded slice is what is converted. *)
Theorem single_read_zero_padded (h : OpenAPI) (c : GinContext) (w : World)
    (file : FileHeader) (f : File) (chunk : bytes) :
  FormFile c "file" = inl file ->
  Open file = inl f ->
  (0 <= Size file)%Z ->
  Read f (Z.to_nat (Size file)) = (chunk, None) ->
  let n := Z.to_nat (Size file) in
  let tr := trace (snd (serve cv h c w)) in
  exists content,
    handed tr = [content] /\
    List.length content = n /\
    reads tr = [n] /\
    (List.length chunk <= n ->
     content = (chunk ++ zeroed (n - List.length chunk))%list).
Proof.
  intros Hfile Hopen Hsize Hread n tr.
  exists (copy (zeroed n) chunk).
  unfold tr, n.
  repeat split.
  - by_paths cv h c w file f chunk Hfile Hopen Hsize Hread;
      unfold conversion_call; destruct (_ && _); reflexivity.
  - now rewrite copy_length, zeroed_length.
  - by_paths cv h c w file f chunk Hfile Hopen Hsize Hread;
      unfold conversion_call; destruct (_ && _); reflexivity.
  - intros Hle. rewrite copy_short by (now rewrite zeroed_length).
    now rewrite skipn_zeroed.
Qed.

End Outcomes.

(** ** The handler at work in the concrete world *)

Section Runs.
Import Demo.

(** The demo upload reads when it holds some bytes: the slice is the
    announced size, filled with what the reader delivers. *)
Lemma demo_uploaded (size : Z) (data : bytes) (tenant prefix : string) :
  (0 <= size)%Z ->
  data <> [] ->
  Uploaded (request (upload size data) tenant prefix)
    (copy (zeroed (Z.to_nat size)) (firstn (Z.to_nat size) data)).
Proof.
  intros Hsize Hdata. unfold Uploaded.
  destruct data as [|b data]; [contradiction|].
  exists (upload size (b :: data)).
  exists {| Read := fun n => (firstn n (b :: data), None); Close := None |}.
  exists (firstn (Z.to_nat size) (b :: data)).
  repeat split. exact Hsize.
Defined.

Lemma conversion_entry_point_witness :
  conversions (trace (snd (serve converter (handler good_notifier)
                             (request (upload 2 doc) "t" "") world0)))
  = [EvConvertWithOptions doc "t" ""].
Proof.
  apply (conversion_entry_point converter (handler good_notifier)
           (request (upload 2 doc) "t" "") world0 doc).
  - apply (demo_uploaded 2 doc "t" ""); [lia | discriminate].
  - reflexivity.
  - reflexivity.
Defined.



Lemma rejection_deterministic_witness :
  responses (trace (snd (serve converter (handler good_notifier)
                           (request (upload 3 junk) "acme" "") world0))) =
  responses (trace (snd (serve converter (handler down_notifier)
                           (request (upload 3 junk) "acme" "") world1))) /\
  responses (trace (snd (serve converter (handler good_notifier)
                           (request (upload 3 junk) "acme" "") world0))) =
    [ErrorResponse (WithParam ErrBadRequest "Reason"
       "Failed to convert OpenAPI specification: not a JSON object")].
Proof.
  apply (rejection_deterministic converter (handler good_notifier)
           (handler down_notifier) (request (upload 3 junk) "acme" "")
           (request (upload 3 junk) "acme" "") world0 world1 junk
           "not a JSON object").
  - apply (demo_uploaded 3 junk "acme" ""); [lia | discriminate].
  - apply (demo_uploaded 3 junk "acme" ""); [lia | discriminate].
  - reflexivity.
  - reflexivity.
  - reflexivity.
Defined.

Lemma store_failure_stops_witness :
  let r := serve converter (handler good_notifier)
             (request (upload 2 doc) "" "") world1 in
  fst r = Returned /\
  responses (trace (snd r)) =
    [ErrorResponse (WithParam ErrInternalServer "Reason"
       "Failed to create MCP server: already exists")] /\
  Forall (fun rsp => carried rsp = None) (responses (trace (snd r))) /\
  notifications (trace (snd r)) = [] /\
  w_notifier (world (snd r)) = [] /\
  creates (trace (snd r)) = [(7, 4, petstore "default" "/api")] /\
  List.length (conversions (trace (snd r))) = 1.
Proof.
  apply (store_failure_stops converter (handler good_notifier)
           (request (upload 2 doc) "" "") world1 doc
           (petstore "default" "/api") "already exists" ["petstore"]
           (heap_set (w_heap world1) 4 (petstore "default" "/api"))).
  - apply (demo_uploaded 2 doc "" ""); [lia | discriminate].
  - reflexivity.
  - reflexivity.
Defined.

Lemma notify_failure_keeps_store_witness :
  let r := serve converter (handler down_notifier)
             (request (upload 2 doc) "" "") world0 in
  fst r = Returned /\
  responses (trace (snd r)) =
    [ErrorResponse (WithParam ErrInternalServer "Reason"
       "Failed to notify gateway: gateway unreachable")] /\
  Forall (fun rsp => carried rsp = None) (responses (trace (snd r))) /\
  side_effects (trace (snd r)) = [true; false] /\
  creates (trace (snd r)) = [(7, 1, petstore "default" "/api")] /\
  w_store (world (snd r)) = ["petstore"].
Proof.
  apply (notify_failure_keeps_store converter (handler down_notifier)
           (request (upload 2 doc) "" "") world0 doc
           (petstore "default" "/api") "gateway unreachable" ["petstore"] []
           (heap_set (w_heap world0) 1 (petstore "default" "/api"))
           (heap_set (w_heap world0) 1 (petstore "default" "/api"))).
  - apply (demo_uploaded 2 doc "" ""); [lia | discriminate].
  - reflexivity.
  - reflexivity.
  - reflexivity.
Defined.

(** C3 as first stated does not hold: here the store accepts the
    configuration, the notifier fails, and the one response the client
    gets is an error with a reason and without the configuration that was
    stored. *)
Lemma notify_failure_response_without_config :
  let r := serve converter (handler down_notifier)
             (request (upload 2 doc) "" "") world0 in
  creates (trace (snd r)) = [(7, 1, petstore "default" "/api")] /\
  w_store (world (snd r)) = ["petstore"] /\
  notifications (trace (snd r)) = [(7, 1, petstore "default" "/api")] /\
  map reason (responses (trace (snd r))) =
    [Some "Failed to notify gateway: gateway unreachable"] /\
  map carried (responses (trace (snd r))) = [None] /\
  ~ In (Some (1, petstore "default" "/api"))
       (map carried (responses (trace (snd r)))).
Proof.
  cbv zeta. repeat split; try reflexivity.
  intros [Habs|[]]. discriminate Habs.
Qed.

Lemma import_succeeds_witness :
  let r := serve converter (handler good_notifier)
             (request (upload 2 doc) "acme" "/v1") world0 in
  fst r = Next tt /\
  responses (trace (snd r)) =
    [CreatedResponse SuccessOpenAPIImported
       [("status", PString "success");
        ("config", PConfig 1 (petstore "acme" "/v1"))]] /\
  creates (trace (snd r)) = [(7, 1, petstore "acme" "/v1")] /\
  notifications (trace (snd r)) = [(7, 1, petstore "acme" "/v1")] /\
  side_effects (trace (snd r)) = [true; false] /\
  (petstore "acme" "/v1" = petstore "acme" "/v1" ->
   petstore "acme" "/v1" = petstore "acme" "/v1" ->
   map carried (responses (trace (snd r))) = [Some (1, petstore "acme" "/v1")]).
Proof.
  apply (import_succeeds converter (handler good_notifier)
           (request (upload 2 doc) "acme" "/v1") world0 doc
           (petstore "acme" "/v1") ["petstore"] ["petstore"]
           (heap_set (w_heap world0) 1 (petstore "acme" "/v1"))
           (heap_set (w_heap world0) 1 (petstore "acme" "/v1"))).
  - apply (demo_uploaded 2 doc "acme" "/v1"); [lia | discriminate].
  - reflexivity.
  - reflexivity.
  - reflexivity.
Defined.

Lemma config_never_written_witness :
  let tr := trace (snd (serve converter (handler good_notifier)
                          (request (upload 2 doc) "acme" "/v1") world0)) in
  creates tr = [(7, 1, petstore "acme" "/v1")] /\
  Forall (fun x => x = (7, 1, petstore "acme" "/v1")) (notifications tr) /\
  Forall (fun rsp => forall x, carried rsp = Some x ->
                               x = (1, petstore "acme" "/v1"))
    (responses tr).
Proof.
  pose proof (config_never_written converter (handler good_notifier)
                (request (upload 2 doc) "acme" "/v1") world0 doc
                (petstore "acme" "/v1")
                (demo_uploaded 2 doc "acme" "/v1" ltac:(lia) ltac:(discriminate))
                eq_refl)
    as (Hc & Hn & Hr & _).
  cbv zeta. split; [exact Hc | split; [exact Hn | exact Hr]].
Defined.

Lemma single_read_zero_padded_witness :
  exists content,
    handed (trace (snd (serve converter (handler good_notifier)
                          (request (upload 3 doc) "" "") world0))) = [content] /\
    List.length content = 3 /\
    reads (trace (snd (serve converter (handler good_notifier)
                         (request (upload 3 doc) "" "") world0))) = [3] /\
    (2 <= 3 -> content = [x7b; x7d; x00]).
Proof.
  apply (single_read_zero_padded converter (handler good_notifier)
           (request (upload 3 doc) "" "") world0 (upload 3 doc)
           {| Read := fun n => (firstn n doc, None); Close := None |} doc).
  - reflexivity.
  - reflexivity.
  - simpl. lia.
  - reflexivity.
Defined.

End Runs.

(** ** The paths that end before the converter *)

Section EarlyPaths.
Context `{Externals}.
Variables (cv : Converter) (h : OpenAPI) (c : GinContext) (w : World).

Lemma path_no_file (err : error) :
  FormFile c "file" = inr err ->
  serve cv h c w =
  (Returned,
   {| world := w;
      trace :=
        [ EvLog Info "handling OpenAPI import request" [];
          EvLog Error "failed to get file from request" [zap_Error err];
          EvRespond (ErrorResponse (WithParam ErrBadRequest "Reason"
            ("Failed to get file: " ++ err))) ] |}).
Proof.
  intros Hfile. unfold_handler. rewrite Hfile. reflexivity.
Qed.

Lemma path_open_failed (file : FileHeader) (err : error) :
  FormFile c "file" = inl file ->
  Open file = inr err ->
  serve cv h c w =
  (Returned,
   {| world := w;
      trace :=
        [ EvLog Info "handling OpenAPI import request" [];
          EvLog Debug "processing OpenAPI file"
            [zap_String "filename" (Filename file); zap_Int64 "size" (Size file)];
          EvOpen (Filename file);
          EvLog Error "failed to open uploaded file"
            [zap_String "filename" (Filename file); zap_Error err];
          EvRespond (ErrorResponse (WithParam ErrInternalServer "Reason"
            ("Failed to open file: " ++ err))) ] |}).
Proof.
  intros Hfile Hopen. unfold_handler. rewrite Hfile. unfold_handler.
  rewrite Hopen. reflexivity.
Qed.

Lemma path_size_negative (file : FileHeader) (f : File) :
  FormFile c "file" = inl file ->
  Open file = inl f ->
  (Size file < 0)%Z ->
  serve cv h c w =
  (Panicked "makeslice: len out of range",
   {| world := w;
      trace :=
        [ EvLog Info "handling OpenAPI import request" [];
          EvLog Debug "processing OpenAPI file"
            [zap_String "filename" (Filename file); zap_Int64 "size" (Size file)];
          EvOpen (Filename file);
          EvClose ] |}).
Proof.
  intros Hfile Hopen Hneg. unfold_handler. rewrite Hfile. unfold_handler.
  rewrite Hopen. unfold_handler.
  destruct (Z.ltb_spec (Size file) 0) as [_|Hge]; [reflexivity | lia].
Qed.

Lemma path_read_failed (file : FileHeader) (f : File) (chunk : bytes) (err : error) :
  FormFile c "file" = inl file ->
  Open file = inl f ->
  (0 <= Size file)%Z ->
  Read f (Z.to_nat (Size file)) = (chunk, Some err) ->
  serve cv h c w =
  (Returned,
   {| world := w;
      trace :=
        [ EvLog Info "handling OpenAPI import request" [];
          EvLog Debug "processing OpenAPI file"
            [zap_String "filename" (Filename file); zap_Int64 "size" (Size file)];
          EvOpen (Filename file);
          EvRead (Z.to_nat (Size file));
          EvLog Error "failed to read file content"
            [zap_String "filename" (Filename file); zap_Error err];
          EvRespond (ErrorResponse (WithParam ErrInternalServer "Reason"
            ("Failed to read file: " ++ err)));
          EvClose ] |}).
Proof.
  intros Hfile Hopen Hsize Hread. unfold_handler. rewrite Hfile. unfold_handler.
  rewrite Hopen. unfold_handler.
  destruct (Z.ltb_spec (Size file) 0) as [Hneg|_]; [lia|].
  unfold_handler. rewrite zeroed_length, Hread. reflexivity.
Qed.

End EarlyPaths.

(** ** Requests that never reach the converter *)

Section Transport.
Context `{Externals}.
Variable cv : Converter.

(** X1. A request without the form file [file] is answered with the
    bad-request error whose reason is ["Failed to get file: "] followed by
    the error of [FormFile]; nothing is opened, read, converted, stored or
    notified, and the world is as it was. *)
Theorem missing_file_rejected (h : OpenAPI) (c : GinContext) (w : World)
    (err : error) :
  FormFile c "file" = inr err ->
  let r := serve cv h c w in
  fst r = Returned /\
  responses (trace (snd r)) =
    [ErrorResponse (WithParam ErrBadRequest "Reason" ("Failed to get file: " ++ err))] /\
  opens (trace (snd r)) = [] /\
  reads (trace (snd r)) = [] /\
  conversions (trace (snd r)) = [] /\
  side_effects (trace (snd r)) = [] /\
  world (snd r) = w.
Proof.
  intros Hfile r. unfold r. rewrite (path_no_file cv h c w err Hfile).
  repeat split.
Qed.

(** X2. When the upload cannot be opened the handler answers with the
    internal-server error whose reason is ["Failed to open file: "]
    followed by the error of [Open].  The file is neither read nor closed
    (the deferred [Close] is registered only after a successful [Open]),
    nothing is converted, stored or notified, and the world is as it
    was. *)
Theorem open_failure_reported (h : OpenAPI) (c : GinContext) (w : World)
    (file : FileHeader) (err : error) :
  FormFile c "file" = inl file ->
  Open file = inr err ->
  let r := serve cv h c w in
  fst r = Returned /\
  responses (trace (snd r)) =
    [ErrorResponse (WithParam ErrInternalServer "Reason"
       ("Failed to open file: " ++ err))] /\
  opens (trace (snd r)) = [Filename file] /\
  reads (trace (snd r)) = [] /\
  closes (trace (snd r)) = 0 /\
  conversions (trace (snd r)) = [] /\
  side_effects (trace (snd r)) = [] /\
  world (snd r) = w.
Proof.
  intros Hfile Hopen r. unfold r.
  rewrite (path_open_failed cv h c w file err Hfile Hopen).
  repeat split.
Qed.

(** X3. Any error returned by the one [Read] ends the request, whatever
    bytes came with it: the handler answers with the internal-server error
    whose reason is ["Failed to read file: "] followed by that error, the
    bytes delivered are dropped without reaching the converter, nothing
    is stored or notified, and the file is closed. *)
Theorem read_error_discards_bytes (h : OpenAPI) (c : GinContext) (w : World)
    (file : FileHeader) (f : File) (chunk : bytes) (err : error) :
  FormFile c "file" = inl file ->
  Open file = inl f ->
  (0 <= Size file)%Z ->
  Read f (Z.to_nat (Size file)) = (chunk, Some err) ->
  let r := serve cv h c w in
  fst r = Returned /\
  responses (trace (snd r)) =
    [ErrorResponse (WithParam ErrInternalServer "Reason"
       ("Failed to read file: " ++ err))] /\
  reads (trace (snd r)) = [Z.to_nat (Size file)] /\
  handed (trace (snd r)) = [] /\
  side_effects (trace (snd r)) = [] /\
  closes (trace (snd r)) = 1 /\
  world (snd r) = w.
Proof.
  intros Hfile Hopen Hsize Hread r. unfold r.
  rewrite (path_read_failed cv h c w file f chunk err Hfile Hopen Hsize Hread).
  repeat split.
Qed.

(** X4. A negative announced size makes [make] panic: the handler
    panics before reading, writes no response, converts, stores and
    notifies nothing, and the deferred [Close] still runs. *)
Theorem negative_size_panics (h : OpenAPI) (c : GinContext) (w : World)
    (file : FileHeader) (f : File) :
  FormFile c "file" = inl file ->
  Open file = inl f ->
  (Size file < 0)%Z ->
  let r := serve cv h c w in
  (exists msg, fst r = Panicked msg) /\
  responses (trace (snd r)) = [] /\
  reads (trace (snd r)) = [] /\
  conversions (trace (snd r)) = [] /\
  side_effects (trace (snd r)) = [] /\
  closes (trace (snd r)) = 1 /\
  world (snd r) = w.
Proof.
  intros Hfile Hopen Hneg r. unfold r.
  rewrite (path_size_negative cv h c w file f Hfile Hopen Hneg).
  repeat split. eexists. reflexivity.
Qed.

(** X5. Once the upload is open it is closed exactly once, and that
    [Close] is the last thing the handler does, however the request ends
    (rejection, store or notifier failure, success or panic). *)
Theorem opened_file_closed_last (h : OpenAPI) (c : GinContext) (w : World)
    (file : FileHeader) (f : File) :
  FormFile c "file" = inl file ->
  Open file = inl f ->
  let tr := trace (snd (serve cv h c w)) in
  closes tr = 1 /\
  last tr (EvRead 0) = EvClose /\
  opens tr = [Filename file].
Proof.
  intros Hfile Hopen tr. unfold tr.
  destruct (Z.ltb_spec (Size file) 0) as [Hneg|Hsize].
  - rewrite (path_size_negative cv h c w file f Hfile Hopen Hneg).
    repeat split.
  - destruct (Read f (Z.to_nat (Size file))) as [chunk [err|]] eqn:Hread.
    + rewrite (path_read_failed cv h c w file f chunk err Hfile Hopen Hsize Hread).
      repeat split.
    + by_paths cv h c w file f chunk Hfile Hopen Hsize Hread;
        unfold conversion_call; destruct (_ && _); repeat split.
Qed.

(** X6. When the one [Read] fills the whole slice, the converter is
    handed exactly the bytes delivered, unchanged. *)
Theorem full_read_converted_unchanged (h : OpenAPI) (c : GinContext) (w : World)
    (file : FileHeader) (f : File) (chunk : bytes) :
  FormFile c "file" = inl file ->
  Open file = inl f ->
  (0 <= Size file)%Z ->
  Read f (Z.to_nat (Size file)) = (chunk, None) ->
  List.length chunk = Z.to_nat (Size file) ->
  handed (trace (snd (serve cv h c w))) = [chunk].
Proof.
  intros Hfile Hopen Hsize Hread Hlen.
  assert (Hcopy : copy (zeroed (Z.to_nat (Size file))) chunk = chunk).
  { rewrite copy_short by (rewrite zeroed_length; lia).
    rewrite skipn_zeroed, Hlen, Nat.sub_diag. apply app_nil_r. }
  by_paths cv h c w file f chunk Hfile Hopen Hsize Hread;
    unfold conversion_call; destruct (_ && _); cbn; now rewrite Hcopy.
Qed.

End Transport.

(** ** What holds of every request *)

Section Always.
Context `{Externals}.
Variable cv : Converter.

(** X7. How the handler ends tells what it answered: it runs to its end
    exactly with one created response, it returns early exactly with one
    error response, and it writes no response when it panics.  No request
    gets two responses. *)
Theorem one_response_per_request (h : OpenAPI) (c : GinContext) (w : World) :
  let r := serve cv h c w in
  match fst r with
  | Next _ => exists m data, responses (trace (snd r)) = [CreatedResponse m data]
  | Returned => exists e, responses (trace (snd r)) = [ErrorResponse e]
  | Panicked _ => responses (trace (snd r)) = []
  end.
Proof.
  unfold_handler.
  repeat handler_case; cbn; try reflexivity; repeat eexists.
Qed.

(** X8. Nothing is tried twice and nothing is done out of order: on every
    request the file is read at most once, the converter is called at most
    once, and the store and the notifier see either no call, or one
    [Create], or one [Create] followed by one [NotifyUpdate]. *)
Theorem no_retry_no_reorder (h : OpenAPI) (c : GinContext) (w : World) :
  let tr := trace (snd (serve cv h c w)) in
  List.length (reads tr) <= 1 /\
  List.length (conversions tr) <= 1 /\
  (side_effects tr = [] \/ side_effects tr = [true] \/
   side_effects tr = [true; false]).
Proof.
  unfold_handler.
  repeat handler_case; cbn; repeat split; auto.
Qed.

(** X9. Every failure is both logged and answered, with the same error:
    an error response has the single parameter [Reason], whose value ends
    in the text of the one error logged at level [Error]; and when the
    created response is sent nothing was logged at that level. *)
Theorem failures_logged_and_answered (h : OpenAPI) (c : GinContext) (w : World) :
  let tr := trace (snd (serve cv h c w)) in
  Forall (fun rsp =>
            match rsp with
            | ErrorResponse e =>
                exists stage err,
                  err_params e = [("Reason", stage ++ err)] /\
                  logged_errors tr = [err]
            | CreatedResponse _ _ => logged_errors tr = []
            end)
    (responses tr).
Proof.
  unfold_handler.
  repeat handler_case; cbn [responses logged_errors field_errors app];
    first [ apply Forall_nil
          | apply Forall_cons;
            [ first [ reflexivity | do 2 eexists; split; reflexivity ]
            | apply Forall_nil ] ].
Qed.

(** X10. A bad-request answer means nothing happened: if the handler
    answers with [ErrBadRequest], neither [Create] nor [NotifyUpdate] was
    called and the world is exactly as it was. *)
Theorem bad_request_leaves_world (h : OpenAPI) (c : GinContext) (w : World)
    (e : ErrorWithParams) :
  In (ErrorResponse e) (responses (trace (snd (serve cv h c w)))) ->
  err_code e = ErrBadRequest ->
  side_effects (trace (snd (serve cv h c w))) = [] /\
  world (snd (serve cv h c w)) = w.
Proof.
  unfold_handler.
  repeat handler_case; cbn; intros Hin Hcode;
    repeat match goal with
           | Hin : _ \/ _ |- _ => destruct Hin as [Hin|Hin]
           | Hin : False |- _ => destruct Hin
           | Hin : ErrorResponse _ = ErrorResponse _ |- _ =>
               injection Hin as Hin; subst
           | Hin : CreatedResponse _ _ = ErrorResponse _ |- _ => discriminate Hin
           end;
    try discriminate Hcode; split; reflexivity.
Qed.

(** X11. The created response is sent only when every step succeeded: if
    a request is answered with a created response, then its upload was
    read, the conversion of those bytes yielded a configuration, [Create]
    returned no error for it, [NotifyUpdate] returned no error after
    that, and the handler ran to its end. *)
Theorem created_only_after_all_steps (h : OpenAPI) (c : GinContext) (w : World)
    (m : MessageKey) (data : list (string * Payload)) :
  In (CreatedResponse m data) (responses (trace (snd (serve cv h c w)))) ->
  exists content v,
    Uploaded c content /\
    conversion cv content (PostForm c "tenantId") (PostForm c "prefix") = inl v /\
    fst (fst (Create (store h) (Request_Context c) (w_next w) (w_store w)
                (heap_set (w_heap w) (w_next w) v))) = None /\
    fst (fst (NotifyUpdate (notifier h) (Request_Context c) (w_next w)
                (w_notifier w)
                (snd (Create (store h) (Request_Context c) (w_next w) (w_store w)
                        (heap_set (w_heap w) (w_next w) v))))) = None /\
    fst (serve cv h c w) = Next tt.
Proof.
  destruct (FormFile c "file") as [file|err] eqn:Hfile.
  2: { rewrite (path_no_file cv h c w err Hfile). cbn.
       intros [Habs|[]]; discriminate Habs. }
  destruct (Open file) as [f|err] eqn:Hopen.
  2: { rewrite (path_open_failed cv h c w file err Hfile Hopen). cbn.
       intros [Habs|[]]; discriminate Habs. }
  destruct (Z.ltb_spec (Size file) 0) as [Hneg|Hsize].
  { rewrite (path_size_negative cv h c w file f Hfile Hopen Hneg). cbn.
    intros []. }
  destruct (Read f (Z.to_nat (Size file))) as [chunk [err|]] eqn:Hread.
  { rewrite (path_read_failed cv h c w file f chunk err Hfile Hopen Hsize Hread).
    cbn. intros [Habs|[]]; discriminate Habs. }
  assert (Hup : Uploaded c (copy (zeroed (Z.to_nat (Size file))) chunk)).
  { exists file, f, chunk. repeat split; assumption. }
  by_paths cv h c w file f chunk Hfile Hopen Hsize Hread;
    unfold conversion_call; destruct (_ && _); cbn;
    intros [Habs|[]]; try discriminate Habs;
    exists (copy (zeroed (Z.to_nat (Size file))) chunk), v;
    rewrite Hcreate; cbn [fst snd]; rewrite Hnotify; cbn [fst snd];
    repeat split; assumption.
Qed.

End Always.

(** ** Those properties at work in the concrete world *)

Section MoreRuns.
Import Demo.

Lemma missing_file_rejected_witness :
  let r := serve converter (handler good_notifier) request_without_file world0 in
  fst r = Returned /\
  responses (trace (snd r)) =
    [ErrorResponse (WithParam ErrBadRequest "Reason"
       "Failed to get file: http: no such file")] /\
  opens (trace (snd r)) = [] /\
  reads (trace (snd r)) = [] /\
  conversions (trace (snd r)) = [] /\
  side_effects (trace (snd r)) = [] /\
  world (snd r) = world0.
Proof.
  apply (missing_file_rejected converter (handler good_notifier)
           request_without_file world0 "http: no such file").
  reflexivity.
Defined.

Lemma open_failure_reported_witness :
  let r := serve converter (handler good_notifier)
             (request unopenable "acme" "/v1") world0 in
  fst r = Returned /\
  responses (trace (snd r)) =
    [ErrorResponse (WithParam ErrInternalServer "Reason"
       "Failed to open file: permission denied")] /\
  opens (trace (snd r)) = ["api.yaml"] /\
  reads (trace (snd r)) = [] /\
  closes (trace (snd r)) = 0 /\
  conversions (trace (snd r)) = [] /\
  side_effects (trace (snd r)) = [] /\
  world (snd r) = world0.
Proof.
  apply (open_failure_reported converter (handler good_notifier)
           (request unopenable "acme" "/v1") world0 unopenable
           "permission denied").
  - reflexivity.
  - reflexivity.
Defined.

Lemma read_error_discards_bytes_witness :
  let r := serve converter (handler good_notifier)
             (request (eof_upload 2 doc) "" "") world0 in
  fst r = Returned /\
  responses (trace (snd r)) =
    [ErrorResponse (WithParam ErrInternalServer "Reason"
       "Failed to read file: EOF")] /\
  reads (trace (snd r)) = [2] /\
  handed (trace (snd r)) = [] /\
  side_effects (trace (snd r)) = [] /\
  closes (trace (snd r)) = 1 /\
  world (snd r) = world0.
Proof.
  apply (read_error_discards_bytes converter (handler good_notifier)
           (request (eof_upload 2 doc) "" "") world0 (eof_upload 2 doc)
           (eof_file doc) doc "EOF").
  - reflexivity.
  - reflexivity.
  - simpl. lia.
  - reflexivity.
Defined.

Lemma negative_size_panics_witness :
  let r := serve converter (handler good_notifier)
             (request (upload (-1) doc) "" "") world0 in
  (exists msg, fst r = Panicked msg) /\
  responses (trace (snd r)) = [] /\
  reads (trace (snd r)) = [] /\
  conversions (trace (snd r)) = [] /\
  side_effects (trace (snd r)) = [] /\
  closes (trace (snd r)) = 1 /\
  world (snd r) = world0.
Proof.
  apply (negative_size_panics converter (handler good_notifier)
           (request (upload (-1) doc) "" "") world0 (upload (-1) doc)
           {| Read := fun n => (firstn n doc, None); Close := None |}).
  - reflexivity.
  - reflexivity.
  - simpl. lia.
Defined.

Lemma opened_file_closed_last_witness :
  let tr := trace (snd (serve converter (handler down_notifier)
                          (request (upload 2 doc) "" "") world0)) in
  closes tr = 1 /\
  last tr (EvRead 0) = EvClose /\
  opens tr = ["api.yaml"].
Proof.
  apply (opened_file_closed_last converter (handler down_notifier)
           (request (upload 2 doc) "" "") world0 (upload 2 doc)
           {| Read := fun n => (firstn n doc, None); Close := None |}).
  - reflexivity.
  - reflexivity.
Defined.

Lemma full_read_converted_unchanged_witness :
  handed (trace (snd (serve converter (handler good_notifier)
                        (request (upload 2 doc) "acme" "/v1") world0)))
  = [doc].
Proof.
  apply (full_read_converted_unchanged converter (handler good_notifier)
           (request (upload 2 doc) "acme" "/v1") world0 (upload 2 doc)
           {| Read := fun n => (firstn n doc, None); Close := None |} doc).
  - reflexivity.
  - reflexivity.
  - simpl. lia.
  - reflexivity.
  - reflexivity.
Defined.

Lemma bad_request_leaves_world_witness :
  side_effects (trace (snd (serve converter (handler good_notifier)
                              (request (upload 3 junk) "acme" "") world0))) = [] /\
  world (snd (serve converter (handler good_notifier)
                (request (upload 3 junk) "acme" "") world0)) = world0.
Proof.
  apply (bad_request_leaves_world converter (handler good_notifier)
           (request (upload 3 junk) "acme" "") world0
           (WithParam ErrBadRequest "Reason"
              "Failed to convert OpenAPI specification: not a JSON object")).
  - vm_compute. left. reflexivity.
  - reflexivity.
Defined.

Lemma created_only_after_all_steps_witness :
  exists content v,
    Uploaded (request (upload 2 doc) "acme" "/v1") content /\
    conversion converter content "acme" "/v1" = inl v /\
    fst (fst (Create memory_store 7 1 []
                (heap_set (w_heap world0) 1 v))) = None /\
    fst (fst (NotifyUpdate good_notifier 7 1 []
                (snd (Create memory_store 7 1 []
                        (heap_set (w_heap world0) 1 v))))) = None /\
    fst (serve converter (handler good_notifier)
           (request (upload 2 doc) "acme" "/v1") world0) = Next tt.
Proof.
  apply (created_only_after_all_steps converter (handler good_notifier)
           (request (upload 2 doc) "acme" "/v1") world0
           SuccessOpenAPIImported
           [("status", @PString externals "success");
            ("config", @PConfig externals 1 (petstore "acme" "/v1"))]).
  vm_compute. left. reflexivity.
Defined.

End MoreRuns.
